(** * Object/node mappings: [llama_index/objects/base_node_mapping.py]

    A shallow embedding of [BaseObjectNodeMapping] and of its concrete
    subclass [SimpleObjectNodeMapping], together with the properties of the
    mapping table, of the node round trip and of pickle persistence.

    Python values that the module treats as opaque (the objects, their
    [str()] form, the builtin [hash], the pickle codec, [concat_dirs]) are
    gathered in the class [Runtime]; the methods are written over any
    runtime and exercised on a small concrete one at the end of the file. *)

From stdpp Require Import base option list strings gmap fin_maps pretty.
From Stdlib Require Import ZArith Ascii.

Local Open Scope Z_scope.

(** ** Exceptions *)

(** The exception classes that can travel through the module.  [ValueError]
    carries its [__cause__], which [raise ... from err] sets. *)
#[warnings="-register-all"]
Inductive exn : Type :=
| KeyError (key : Z)
| ValueError (msg : string) (cause : option exn)
| NotImplementedError (msg : string)
| PickleError (msg : string)
| PicklingError (msg : string)
| UnpicklingError (msg : string)
| TypeError (msg : string)
| EOFError (msg : string)
| FileNotFoundError (path : string)
| IsADirectoryError (path : string)
| NotADirectoryError (path : string)
| FileExistsError (path : string)
| UserError (cls msg : string).

(** [isinstance(e, pickle.PickleError)]: the class and its two subclasses. *)
Definition is_PickleError (e : exn) : bool :=
  match e with
  | PickleError _ | PicklingError _ | UnpicklingError _ => true
  | _ => false
  end.

(** [isinstance(e, OSError)]: what [os.makedirs] and [open] raise. *)
Definition is_OSError (e : exn) : bool :=
  match e with
  | FileNotFoundError _ | IsADirectoryError _ | NotADirectoryError _
  | FileExistsError _ => true
  | _ => false
  end.

(** The outcome of a call: a returned value or a raised exception. *)
Inductive result (A : Type) : Type :=
| Ok (a : A)
| Raise (e : exn).
Arguments Ok {A} a.
Arguments Raise {A} e.

(** ** Computations over a mutable state

    A method call maps the state before the call to its outcome and the state
    after it.  The state survives a raised exception, as the attributes of
    [self] and the file system do in Python. *)
Definition Py (St A : Type) : Type := St -> result A * St.

Definition py_ret {St A} (a : A) : Py St A := fun s => (Ok a, s).

Definition py_bind {St A B} (c : Py St A) (k : A -> Py St B) : Py St B :=
  fun s =>
    match c s with
    | (Ok a, s') => k a s'
    | (Raise e, s') => (Raise e, s')
    end.

Definition py_raise {St A} (e : exn) : Py St A := fun s => (Raise e, s).

(** A call that reads no state: it returns or raises. *)
Definition py_lift {St A} (r : result A) : Py St A := fun s => (r, s).

Definition py_modify {St} (f : St -> St) : Py St unit := fun s => (Ok tt, f s).

(** [try: body  except C as err: handler(err)], where [catches] decides
    [isinstance(err, C)]; an exception of another class passes through. *)
Definition py_try {St A} (body : Py St A) (catches : exn -> bool)
    (handler : exn -> Py St A) : Py St A :=
  fun s =>
    match body s with
    | (Ok a, s') => (Ok a, s')
    | (Raise e, s') => if catches e then handler e s' else (Raise e, s')
    end.

Declare Scope py_scope.
Delimit Scope py_scope with py.
Notation "x <- c1 ;; c2" := (py_bind c1 (fun x => c2))
  (at level 100, c1 at next level, c2 at level 200, right associativity,
   only parsing) : py_scope.
Notation "c1 ;; c2" := (py_bind c1 (fun _ => c2))
  (at level 100, c2 at level 200, right associativity, only parsing) : py_scope.
Local Open Scope py_scope.

(** [for x in xs: body(x)]: the first exception ends the loop. *)
Fixpoint py_for {St A} (xs : list A) (body : A -> Py St unit) : Py St unit :=
  match xs with
  | [] => py_ret tt
  | x :: xs' => body x ;; py_for xs' body
  end.

(** ** Nodes *)

(** Modelled from the spec: [llama_index.schema.MetadataMode] is not part of
    this module.  The mode says whether the content of a node includes its
    metadata; this module only ever asks for [NONE]. *)
Inductive MetadataMode : Type := ALL | NONE.

(** Modelled from the spec: [llama_index.schema.TextNode] is not part of this
    module.  A node holds a string payload plus metadata. *)
Record TextNode : Type := mkTextNode {
  text : string;
  metadata : list (string * string);
}.

(** [TextNode(text=s)]: no metadata attached. *)
Definition TextNode_of_text (s : string) : TextNode :=
  {| text := s; metadata := [] |}.

(** One line, [key: value], per metadata entry. *)
Fixpoint metadata_str (md : list (string * string)) : string :=
  match md with
  | [] => ""
  | (k, v) :: md' =>
      k +:+ ": " +:+ v +:+ String (Ascii.ascii_of_nat 10) (metadata_str md')
  end.

(** Modelled from the spec: [get_content(metadata_mode)] returns the text with
    the metadata either included or stripped; mode [NONE] strips it. *)
Definition get_content (metadata_mode : MetadataMode) (node : TextNode) : string :=
  match metadata_mode with
  | NONE => text node
  | ALL => metadata_str (metadata node) +:+ text node
  end.

(** ** The runtime the module runs in *)

Class Runtime : Type := {
  (** the caller's objects, of unconstrained type *)
  Obj : Type;
  (** the contents of a file *)
  bytes : Type;
  (** builtin [str(obj)] *)
  str : Obj -> string;
  (** builtin [hash] on strings, a fixed function within one process *)
  hash : string -> Z;
  (** [llama_index.utils.concat_dirs], not part of this module *)
  concat_dirs : string -> string -> string;
  (** [pickle.dump(table, f)]: the bytes that reach the file, and the
      exception raised, if any *)
  pickle_dump : gmap Z Obj -> bytes * option exn;
  (** [pickle.load(f)] on a file holding the given bytes *)
  pickle_load : bytes -> result (gmap Z Obj);
}.

(** ** The file system

    Paths are POSIX path strings, compared as they are written and free of
    [.] and [..] components; a path names a directory, a regular file, or
    nothing.  The root and the working directory always exist.  Permissions
    and links are not modelled. *)
Record World `{Runtime} : Type := mkWorld {
  dirs : gset string;
  files : gmap string bytes;
}.

(** Whether a path ends with a separator. *)
Fixpoint ends_with_sep (path : string) : bool :=
  match path with
  | EmptyString => false
  | String c rest =>
      match rest with
      | EmptyString => Ascii.eqb c "/"
      | String _ _ => ends_with_sep rest
      end
  end.

(** A path without the separators at its end. *)
Fixpoint strip_seps (path : string) : string :=
  match path with
  | EmptyString => EmptyString
  | String c rest =>
      let rest' := strip_seps rest in
      if String.eqb rest' "" && Ascii.eqb c "/" then EmptyString
      else String c rest'
  end.

(** The directories a path runs through, outermost first: its prefixes that
    end just before a separator. *)
Fixpoint path_ancestors_from (seen rest : string) : list string :=
  match rest with
  | EmptyString => []
  | String c rest' =>
      if Ascii.eqb c "/"
      then (if String.eqb seen "" || ends_with_sep seen then [] else [seen])
             ++ path_ancestors_from (seen +:+ "/") rest'
      else path_ancestors_from (seen +:+ String c "") rest'
  end.

Definition path_ancestors (path : string) : list string :=
  path_ancestors_from "" path.

Section FileSystem.
Context `{RT : Runtime}.

(** [os.path.exists(path)] *)
Definition os_path_exists (path : string) : Py World bool :=
  fun w => (Ok (bool_decide (path ∈ dirs w ∨ is_Some (files w !! path))), w).

(** [os.makedirs] at work below a given list of ancestors: a directory on
    the way that is missing is created, a regular file on the way makes the
    next [mkdir] raise, and the leaf is created last. *)
Fixpoint makedirs_from (leaf : string) (ancestors : list string)
    : Py World unit :=
  match ancestors with
  | [] =>
      fun w => (Ok tt, {| dirs := {[leaf]} ∪ dirs w; files := files w |})
  | a :: rest =>
      fun w =>
        if bool_decide (a ∈ dirs w) then makedirs_from leaf rest w
        else if bool_decide (is_Some (files w !! a))
        then (Raise (NotADirectoryError (hd leaf rest)), w)
        else makedirs_from leaf rest
               {| dirs := {[a]} ∪ dirs w; files := files w |}
  end.

(** [os.makedirs(path)] *)
Definition os_makedirs (path : string) : Py World unit :=
  fun w =>
    if bool_decide (path ∈ dirs w ∨ is_Some (files w !! path))
    then (Raise (FileExistsError path), w)
    else if String.eqb path "" then (Raise (FileNotFoundError path), w)
    else makedirs_from path (path_ancestors path) w.

(** The first directory on the way to [path] that is missing or is a
    regular file, as the error [open] raises for it. *)
Fixpoint blocked (w : World) (path : string) (ancestors : list string)
    : option exn :=
  match ancestors with
  | [] => None
  | a :: rest =>
      if bool_decide (a ∈ dirs w) then blocked w path rest
      else if bool_decide (is_Some (files w !! a))
      then Some (NotADirectoryError path)
      else Some (FileNotFoundError path)
  end.

(** Why [open(path, "wb")] cannot create or truncate a file at a path that
    names no directory: the path is empty, a directory on the way is missing
    or is a regular file, or the path ends with a separator. *)
Definition open_error (w : World) (path : string) : option exn :=
  if String.eqb path "" then Some (FileNotFoundError path)
  else
    match blocked w path (path_ancestors (strip_seps path)) with
    | Some e => Some e
    | None =>
        if ends_with_sep path
        then Some (if bool_decide (is_Some (files w !! strip_seps path))
                   then NotADirectoryError path
                   else IsADirectoryError path)
        else None
    end.

(** [with open(path, "wb") as f: write(f)], where [write] yields the bytes
    that reach the file and the exception it raises, if any.  Opening
    creates or truncates the file. *)
Definition with_open_wb (path : string) (write : bytes * option exn)
    : Py World unit :=
  fun w =>
    if bool_decide (path ∈ dirs w)
    then (Raise (IsADirectoryError path), w)
    else
      match open_error w path with
      | Some e => (Raise e, w)
      | None =>
          let w' :=
            {| dirs := dirs w; files := <[path := fst write]> (files w) |} in
          match snd write with
          | None => (Ok tt, w')
          | Some e => (Raise e, w')
          end
      end.

(** [with open(path, "rb") as f: read(f)] *)
Definition with_open_rb {A} (path : string) (read : bytes -> result A)
    : Py World A :=
  fun w =>
    if bool_decide (path ∈ dirs w)
    then (Raise (IsADirectoryError path), w)
    else
      match files w !! path with
      | None => (Raise (FileNotFoundError path), w)
      | Some bs => (read bs, w)
      end.
End FileSystem.

(** ** [BaseObjectNodeMapping]: the defaults for persistence *)

(** The module constant [DEFAULT_PERSIST_FNAME]. *)
Definition DEFAULT_PERSIST_FNAME : string := "object_node_mapping.pickle".

Section Base.
Context `{RT : Runtime}.

(** [BaseObjectNodeMapping.persist] *)
Definition Base_persist (persist_dir obj_node_mapping_fname : string)
    : Py World unit :=
  py_raise (NotImplementedError
              "This object node mapping does not support persist method.").

(** [BaseObjectNodeMapping.from_persist_dir] *)
Definition Base_from_persist_dir {Self : Type}
    (persist_dir obj_node_mapping_fname : string) : Py World Self :=
  py_raise (NotImplementedError
              "This object node mapping does not support from_persist_dir method.").
End Base.

(** ** [SimpleObjectNodeMapping] *)

(** The instance state: the table [self._objs]. *)
Record SimpleObjectNodeMapping `{Runtime} : Type := mkMapping {
  _objs : gmap Z Obj;
}.

(** [BaseObjectNodeMapping.validate_object], the hook as the base class and
    [SimpleObjectNodeMapping] have it: it does nothing. *)
Definition validate_object_base `{Runtime} (obj : Obj) : result unit := Ok tt.

Section Mapping.
Context `{RT : Runtime}.

(** The hook [self.validate_object], which a subclass may override: it
    returns or raises, and does not touch the table. *)
Variable validate_object : Obj -> result unit.

Local Abbreviation Self := SimpleObjectNodeMapping.

(** [{hash(str(obj)): obj for obj in objs}] *)
Definition dict_of_objs (objs : list Obj) : gmap Z Obj :=
  foldl (fun d obj => <[hash (str obj) := obj]> d) ∅ objs.

(** [objs or []] *)
Definition or_empty (objs : option (list Obj)) : list Obj :=
  match objs with
  | Some (o :: l) => o :: l
  | _ => []
  end.

(** [SimpleObjectNodeMapping.__init__] *)
Definition __init__ (objs : option (list Obj)) : result Self :=
  let objs := or_empty objs in
  match py_for objs (fun obj => py_lift (validate_object obj)) tt with
  | (Ok _, _) => Ok {| _objs := dict_of_objs objs |}
  | (Raise e, _) => Raise e
  end.

(** [SimpleObjectNodeMapping.from_objects] *)
Definition from_objects (objs : list Obj) : result Self :=
  __init__ (Some objs).

(** The property [obj_node_mapping] and its setter. *)
Definition obj_node_mapping : Py Self (gmap Z Obj) :=
  fun self => (Ok (_objs self), self).

Definition set_obj_node_mapping (mapping : gmap Z Obj) : Py Self unit :=
  py_modify (fun _ => {| _objs := mapping |}).

(** [SimpleObjectNodeMapping._add_object] *)
Definition _add_object (obj : Obj) : Py Self unit :=
  py_modify (fun self => {| _objs := <[hash (str obj) := obj]> (_objs self) |}).

(** [BaseObjectNodeMapping.add_object] *)
Definition add_object (obj : Obj) : Py Self unit :=
  py_lift (validate_object obj) ;;
  _add_object obj.

(** [SimpleObjectNodeMapping.to_node] *)
Definition to_node (obj : Obj) : Py Self TextNode :=
  py_ret (TextNode_of_text (str obj)).

(** [BaseObjectNodeMapping.to_nodes] *)
Fixpoint to_nodes (objs : list Obj) : Py Self (list TextNode) :=
  match objs with
  | [] => py_ret []
  | obj :: objs' =>
      n <- to_node obj ;;
      ns <- to_nodes objs' ;;
      py_ret (n :: ns)
  end.

(** [SimpleObjectNodeMapping._from_node] *)
Definition _from_node (node : TextNode) : Py Self Obj :=
  fun self =>
    let key := hash (get_content NONE node) in
    match _objs self !! key with
    | Some obj => (Ok obj, self)
    | None => (Raise (KeyError key), self)
    end.

(** [BaseObjectNodeMapping.from_node] *)
Definition from_node (node : TextNode) : Py Self Obj :=
  obj <- _from_node node ;;
  py_lift (validate_object obj) ;;
  py_ret obj.

(** [SimpleObjectNodeMapping.persist] *)
Definition persist (self : Self) (persist_dir obj_node_mapping_fname : string)
    : Py World unit :=
  ex <- os_path_exists persist_dir ;;
  (if negb ex then os_makedirs persist_dir else py_ret tt) ;;
  let obj_node_mapping_path := concat_dirs persist_dir obj_node_mapping_fname in
  py_try
    (with_open_wb obj_node_mapping_path (pickle_dump (_objs self)))
    is_PickleError
    (fun err => py_raise (ValueError "Objs is not pickleable" (Some err))).

(** [SimpleObjectNodeMapping.from_persist_dir] *)
Definition from_persist_dir (persist_dir obj_node_mapping_fname : string)
    : Py World Self :=
  let obj_node_mapping_path := concat_dirs persist_dir obj_node_mapping_fname in
  objs <- py_try
            (with_open_rb obj_node_mapping_path pickle_load)
            is_PickleError
            (fun err => py_raise (ValueError "Objs cannot be loaded." (Some err))) ;;
  match __init__ None with
  | Ok simple_object_node_mapping =>
      py_ret (snd (set_obj_node_mapping objs simple_object_node_mapping))
  | Raise e => py_raise e
  end.
End Mapping.


(** ** Reachable mappings and the table invariant *)

Section Reachable.
Context `{RT : Runtime}.
Variable validate_object : Obj -> result unit.

(** [Built reg self]: [self] was made by the constructor and changed by
    [add_object] calls only; [reg] lists the objects registered so far, oldest
    first.  A call of [add_object] that raises registers nothing. *)
Inductive Built : list Obj -> SimpleObjectNodeMapping -> Prop :=
| Built_init objs self :
    __init__ validate_object objs = Ok self ->
    Built (or_empty objs) self
| Built_add reg self obj self' :
    Built reg self ->
    add_object validate_object obj self = (Ok tt, self') ->
    Built (reg ++ [obj]) self'
| Built_add_raises reg self obj e self' :
    Built reg self ->
    add_object validate_object obj self = (Raise e, self') ->
    Built reg self'.

(** Every entry sits under the hash of its object's string form. *)
Definition table_inv (self : SimpleObjectNodeMapping) : Prop :=
  forall (key : Z) (obj : Obj),
    _objs self !! key = Some obj -> key = hash (str obj).

(** [self.from_node(self.to_node(obj))] *)
Definition node_roundtrip (obj : Obj) : Py SimpleObjectNodeMapping Obj :=
  node <- to_node obj ;;
  from_node validate_object node.
End Reachable.

(** ** A concrete runtime

    A few Python values with their [str()] forms, a string hash, and a pickle
    codec that fails where CPython's does: [PicklingError] for a lambda,
    [TypeError] for an open file.  The theorems below hold in every runtime;
    this one runs them on inputs. *)
Module Demo.

Inductive PyObj : Type :=
| PyInt (n : Z)
| PyStr (s : string)
| PyLambda
| PyFile (name : string).

Definition py_str (obj : PyObj) : string :=
  match obj with
  | PyInt n => pretty n
  | PyStr s => s
  | PyLambda => "<function <lambda> at 0x7f3a5c1d2e50>"
  | PyFile name =>
      "<_io.TextIOWrapper name='" +:+ name +:+ "' mode='r' encoding='UTF-8'>"
  end.

(** A polynomial string hash standing for the builtin one. *)
Definition poly_hash (s : string) : Z :=
  fold_left
    (fun h c => (31 * h + Z.of_nat (Ascii.nat_of_ascii c)) mod 2305843009213693951)
    (String.list_ascii_of_string s) 7.

(** What a file holds: the pickle of a table, a stream cut short, or bytes
    that are no pickle at all. *)
Inductive stream : Type :=
| Pickled (items : list (Z * PyObj))
| Truncated
| Garbage.

Definition lambda_error : exn :=
  PicklingError
    "Can't pickle <function <lambda>>: attribute lookup <lambda> on __main__ failed".

Definition file_error : exn :=
  TypeError "cannot pickle '_io.TextIOWrapper' object".

(** What [pickle.dump] raises on an object, if anything. *)
Definition pickling_error (obj : PyObj) : option exn :=
  match obj with
  | PyLambda => Some lambda_error
  | PyFile _ => Some file_error
  | _ => None
  end.

Definition py_pickle_dump (table : gmap Z PyObj) : stream * option exn :=
  let items := map_to_list table in
  match omap (fun kv => pickling_error (snd kv)) items with
  | e :: _ => (Truncated, Some e)
  | [] => (Pickled items, None)
  end.

Definition py_pickle_load (bs : stream) : result (gmap Z PyObj) :=
  match bs with
  | Pickled items => Ok (list_to_map items)
  | Truncated => Raise (EOFError "Ran out of input")
  | Garbage => Raise (UnpicklingError "invalid load key, 'x'.")
  end.

Definition ends_with_slash (dirname : string) : bool :=
  match rev (String.list_ascii_of_string dirname) with
  | c :: _ => bool_decide (c = "/"%char)
  | [] => false
  end.

(** Modelled from the spec: [llama_index.utils.concat_dirs] is not part of
    this module.  It joins a directory, given with or without a trailing
    separator, and a file name with exactly one separator between them. *)
Definition py_concat_dirs (dirname basename : string) : string :=
  if ends_with_slash dirname then dirname +:+ basename
  else dirname +:+ "/" +:+ basename.

Definition runtime : Runtime := {|
  Obj := PyObj;
  bytes := stream;
  str := py_str;
  hash := poly_hash;
  concat_dirs := py_concat_dirs;
  pickle_dump := py_pickle_dump;
  pickle_load := py_pickle_load;
|}.

(** A subclass hook that accepts integers only. *)
Definition validate_int (obj : PyObj) : result unit :=
  match obj with
  | PyInt _ => Ok tt
  | _ => Raise (ValueError "expected an int" None)
  end.

(** An empty file system. *)
Definition empty_world : @World runtime := {| dirs := ∅; files := ∅ |}.

(** The mapping [SimpleObjectNodeMapping([42, "hello"])]. *)
Definition seeded : @SimpleObjectNodeMapping runtime :=
  {| _objs := @dict_of_objs runtime [PyInt 42; PyStr "hello"] |}.

(** Mappings that hold a lambda, and an open file. *)
Definition with_lambda : @SimpleObjectNodeMapping runtime :=
  {| _objs := @dict_of_objs runtime [PyInt 42; PyLambda] |}.

Definition with_file : @SimpleObjectNodeMapping runtime :=
  {| _objs := @dict_of_objs runtime [PyInt 42; PyFile "log.txt"] |}.

(** File systems in which the default file of directory [storage] is cut
    short, and is no pickle. *)
Definition truncated_world : @World runtime :=
  {| dirs := {["storage"]};
     files := {["storage/object_node_mapping.pickle" := Truncated]} |}.


(** A file system in which that file is the pickle of the table
    [{hash("hello"): "hello"}], and one in which its path names a
    directory. *)
Definition pickled_world : @World runtime :=
  {| dirs := {["storage"]};
     files := {["storage/object_node_mapping.pickle"
                := Pickled [(poly_hash "hello", PyStr "hello")]]} |}.

Definition dir_world : @World runtime :=
  {| dirs := {["storage/object_node_mapping.pickle"]} ∪ {["storage"]};
     files := ∅ |}.

(** A file system in which the path [storage] names a regular file. *)
Definition file_world : @World runtime :=
  {| dirs := ∅; files := {["storage" := Garbage]} |}.





End Demo.


(** * Properties *)

Section Properties.
Context `{RT : Runtime}.
Variable validate_object : Obj -> result unit.

Local Abbreviation accepted := (fun obj : Obj => validate_object obj = Ok tt).

(** ** The dict comprehension *)

Lemma dict_of_objs_snoc (objs : list Obj) (obj : Obj) :
  dict_of_objs (objs ++ [obj]) = <[hash (str obj) := obj]> (dict_of_objs objs).
Proof. unfold dict_of_objs. by rewrite foldl_app. Qed.

Lemma dict_of_objs_lookup_Some (objs : list Obj) (key : Z) (obj : Obj) :
  dict_of_objs objs !! key = Some obj -> obj ∈ objs ∧ key = hash (str obj).
Proof.
  induction objs as [|x objs IH] using rev_ind.
  - unfold dict_of_objs; simpl. by rewrite lookup_empty.
  - rewrite dict_of_objs_snoc.
    destruct (decide (hash (str x) = key)) as [<-|Hne].
    + rewrite lookup_insert_eq. intros [= ->].
      split; [apply elem_of_app; right; apply list_elem_of_singleton | ]; done.
    + rewrite lookup_insert_ne by done. intros Hl.
      destruct (IH Hl) as [Hin Hk].
      split; [apply elem_of_app; by left | done].
Qed.

Lemma dict_of_objs_lookup_last (pre post : list Obj) (obj : Obj) :
  Forall (fun o => hash (str o) ≠ hash (str obj)) post ->
  dict_of_objs (pre ++ obj :: post) !! hash (str obj) = Some obj.
Proof.
  induction post as [|x post IH] using rev_ind; intros Hpost.
  - rewrite dict_of_objs_snoc. apply lookup_insert_eq.
  - apply Forall_app in Hpost as [Hpost Hx].
    inversion_clear Hx as [|? ? Hx' _].
    rewrite app_comm_cons, app_assoc, dict_of_objs_snoc.
    rewrite lookup_insert_ne by done. by apply IH.
Qed.

Lemma dict_of_objs_registered (objs : list Obj) (obj : Obj) :
  obj ∈ objs -> is_Some (dict_of_objs objs !! hash (str obj)).
Proof.
  induction objs as [|x objs IH] using rev_ind; intros Hin.
  - by apply elem_of_nil in Hin.
  - rewrite dict_of_objs_snoc.
    destruct (decide (hash (str x) = hash (str obj))) as [->|Hne].
    + rewrite lookup_insert_eq. eauto.
    + rewrite lookup_insert_ne by done. apply IH.
      apply elem_of_app in Hin as [Hin|Hin]; [done|].
      apply list_elem_of_singleton in Hin. congruence.
Qed.

(** ** The validation loop of the constructor *)

Lemma py_for_validate (objs : list Obj) :
  py_for objs (fun obj => py_lift (validate_object obj)) tt = (Ok tt, tt)
  <-> Forall accepted objs.
Proof.
  induction objs as [|x objs IH]; simpl.
  - split; [constructor | done].
  - unfold py_bind, py_lift at 1.
    destruct (validate_object x) as [[]|e] eqn:Hx.
    + rewrite IH. split.
      * by constructor.
      * by inversion 1.
    + split; [done|]. inversion 1; congruence.
Qed.

Lemma py_for_validate_result (objs : list Obj) :
  (exists e, py_for objs (fun obj => py_lift (validate_object obj)) tt
             = (Raise e, tt))
  ∨ py_for objs (fun obj => py_lift (validate_object obj)) tt = (Ok tt, tt).
Proof.
  induction objs as [|x objs IH]; simpl; [by right|].
  unfold py_bind, py_lift at 1 3.
  destruct (validate_object x) as [[]|e]; [done | left; eauto].
Qed.

Lemma init_Ok (objs : option (list Obj)) (self : SimpleObjectNodeMapping) :
  __init__ validate_object objs = Ok self ->
  _objs self = dict_of_objs (or_empty objs) ∧ Forall accepted (or_empty objs).
Proof.
  unfold __init__.
  destruct (py_for_validate_result (or_empty objs)) as [[e He]|Hok].
  - by rewrite He.
  - rewrite Hok. intros [= <-]. split; [done | by apply py_for_validate].
Qed.

Lemma init_accepted (objs : option (list Obj)) :
  Forall accepted (or_empty objs) ->
  __init__ validate_object objs = Ok {| _objs := dict_of_objs (or_empty objs) |}.
Proof.
  intros Hok. apply py_for_validate in Hok. unfold __init__. by rewrite Hok.
Qed.

(** ** [add_object] *)

Lemma add_object_accepted (obj : Obj) (self : SimpleObjectNodeMapping) :
  validate_object obj = Ok tt ->
  add_object validate_object obj self
  = (Ok tt, {| _objs := <[hash (str obj) := obj]> (_objs self) |}).
Proof. intros Hv. unfold add_object, py_bind, py_lift. by rewrite Hv. Qed.

Lemma add_object_rejected (obj : Obj) (self : SimpleObjectNodeMapping) (e : exn) :
  validate_object obj = Raise e ->
  add_object validate_object obj self = (Raise e, self).
Proof. intros Hv. unfold add_object, py_bind, py_lift. by rewrite Hv. Qed.

Lemma add_object_inv (obj : Obj) (self self' : SimpleObjectNodeMapping)
    (r : result unit) :
  add_object validate_object obj self = (r, self') ->
  (r = Ok tt ∧ validate_object obj = Ok tt
   ∧ _objs self' = <[hash (str obj) := obj]> (_objs self))
  ∨ (exists e, r = Raise e ∧ validate_object obj = Raise e ∧ self' = self).
Proof.
  destruct (validate_object obj) as [[]|e] eqn:Hv.
  - rewrite add_object_accepted by done. intros [= <- <-]. by left.
  - rewrite (add_object_rejected _ _ e) by done. intros [= <- <-]. right; eauto.
Qed.

(** ** Reachable mappings *)

Lemma Built_table (reg : list Obj) (self : SimpleObjectNodeMapping) :
  Built validate_object reg self ->
  _objs self = dict_of_objs reg ∧ Forall accepted reg.
Proof.
  induction 1 as [objs self Hinit | reg self obj self' _ [IHt IHv] Hadd
                 | reg self obj e self' _ IH Hadd].
  - by apply init_Ok.
  - apply add_object_inv in Hadd as [(_ & Hv & Ht)|(e & ? & _)]; [|done].
    split.
    + by rewrite Ht, IHt, dict_of_objs_snoc.
    + apply Forall_app. split; [done | by repeat constructor].
  - apply add_object_inv in Hadd as [(? & _)|(e' & _ & _ & ->)]; done.
Qed.

Lemma from_node_lookup (node : TextNode) (self : SimpleObjectNodeMapping)
    (obj : Obj) :
  _objs self !! hash (get_content NONE node) = Some obj ->
  validate_object obj = Ok tt ->
  from_node validate_object node self = (Ok obj, self).
Proof.
  intros Hl Hv. unfold from_node, py_bind, _from_node, py_lift, py_ret.
  by rewrite Hl, Hv.
Qed.

Lemma from_node_Ok_lookup (node : TextNode) (self self' : SimpleObjectNodeMapping)
    (obj : Obj) :
  from_node validate_object node self = (Ok obj, self') ->
  _objs self !! hash (get_content NONE node) = Some obj.
Proof.
  unfold from_node, py_bind, _from_node, py_lift, py_ret.
  destruct (_objs self !! hash (get_content NONE node)) as [o|]; [|done].
  destruct (validate_object o); [|done]. by intros [= -> _].
Qed.
(** ** Claims about the table *)

(** C1: an object registered through the constructor or [add_object] comes
    back from [from_node (to_node obj)], provided every registered object
    whose string form hashes to the same key is that object.  The table is
    left as it was. *)
Theorem from_node_to_node_registered (reg : list Obj)
    (self : SimpleObjectNodeMapping) (obj : Obj) :
  Built validate_object reg self ->
  obj ∈ reg ->
  (forall obj', obj' ∈ reg -> hash (str obj') = hash (str obj) -> obj' = obj) ->
  node_roundtrip validate_object obj self = (Ok obj, self).
Proof.
  intros HB Hin Huniq.
  destruct (Built_table _ _ HB) as [Ht Hacc].
  destruct (dict_of_objs_registered reg obj Hin) as [obj' Hl].
  destruct (dict_of_objs_lookup_Some _ _ _ Hl) as [Hin' Hk].
  assert (obj' = obj) as -> by (apply Huniq; [done | congruence]).
  unfold node_roundtrip, py_bind, to_node, py_ret.
  apply from_node_lookup.
  - simpl. by rewrite Ht.
  - by eapply (proj1 (Forall_forall _ _)) in Hacc.
Qed.

(** C3: when two distinct objects with the same string form are registered,
    in the constructor's sequence or by later [add_object] calls, and no
    object registered after the second one lands on their key, the key holds
    the second object: both string forms lead to it, and no node leads to the
    first object any more. *)
Theorem last_write_wins (pre mid post : list Obj) (obj1 obj2 : Obj)
    (self : SimpleObjectNodeMapping) :
  Built validate_object (pre ++ obj1 :: mid ++ obj2 :: post) self ->
  obj1 ≠ obj2 ->
  str obj1 = str obj2 ->
  Forall (fun o => hash (str o) ≠ hash (str obj2)) post ->
  _objs self !! hash (str obj1) = Some obj2
  ∧ node_roundtrip validate_object obj1 self = (Ok obj2, self)
  ∧ node_roundtrip validate_object obj2 self = (Ok obj2, self)
  ∧ forall node, fst (from_node validate_object node self) ≠ Ok obj1.
Proof.
  intros HB Hne Hstr Hpost.
  destruct (Built_table _ _ HB) as [Ht Hacc].
  assert (_objs self !! hash (str obj2) = Some obj2) as Hl.
  { rewrite Ht, app_comm_cons, app_assoc. by apply dict_of_objs_lookup_last. }
  assert (validate_object obj2 = Ok tt) as Hv2.
  { eapply (proj1 (Forall_forall _ _)) in Hacc; [done|].
    apply elem_of_app. right. apply elem_of_cons. right.
    apply elem_of_app. right. by apply elem_of_cons; left. }
  repeat split.
  - by rewrite Hstr.
  - unfold node_roundtrip, py_bind, to_node, py_ret.
    apply from_node_lookup; [simpl; by rewrite Hstr | done].
  - unfold node_roundtrip, py_bind, to_node, py_ret.
    by apply from_node_lookup.
  - intros node Hr.
    destruct (from_node validate_object node self) as [r self'] eqn:Hfn.
    simpl in Hr; subst r.
    apply from_node_Ok_lookup in Hfn.
    assert (hash (get_content NONE node) = hash (str obj1)) as Hk.
    { rewrite Ht in Hfn. by apply dict_of_objs_lookup_Some in Hfn as [_ ?]. }
    rewrite Hk, Hstr, Hl in Hfn. congruence.
Qed.

(** C7: in a mapping made by the constructor and changed by [add_object]
    only, every entry of the table sits under the hash of its object's string
    form; the constructor sets this up and every [add_object] call, raising or
    not, keeps it. *)
Theorem table_inv_Built (reg : list Obj) (self : SimpleObjectNodeMapping) :
  Built validate_object reg self -> table_inv self.
Proof.
  induction 1 as [objs self Hinit | reg self obj self' _ IH Hadd
                 | reg self obj e self' _ IH Hadd].
  - apply init_Ok in Hinit as [Ht _]. intros key o. rewrite Ht.
    intros Hl. by apply dict_of_objs_lookup_Some in Hl as [_ ?].
  - apply add_object_inv in Hadd as [(_ & _ & Ht)|(e & ? & _)]; [|done].
    intros key o. rewrite Ht.
    destruct (decide (hash (str obj) = key)) as [<-|Hk].
    + rewrite lookup_insert_eq. by intros [= ->].
    + rewrite lookup_insert_ne by done. apply IH.
  - apply add_object_inv in Hadd as [(? & _)|(e' & _ & _ & ->)]; done.
Qed.

(** [to_nodes] yields one node per object, in the order of the objects. *)
Lemma to_nodes_map (objs : list Obj) (self : SimpleObjectNodeMapping) :
  to_nodes objs self
  = (Ok (map (fun obj => TextNode_of_text (str obj)) objs), self).
Proof.
  induction objs as [|obj objs IH]; [done|].
  simpl. unfold py_bind, to_node, py_ret in *. by rewrite IH.
Qed.

(** C8: [to_node] returns the same node whatever state the mapping is in:
    a node without metadata whose text, and so whose content with the
    metadata excluded, is the string form of the object. *)
Theorem to_node_deterministic (obj : Obj) (self self' : SimpleObjectNodeMapping) :
  exists node,
    to_node obj self = (Ok node, self)
    ∧ to_node obj self' = (Ok node, self')
    ∧ get_content NONE node = str obj
    ∧ metadata node = [].
Proof.
  exists (TextNode_of_text (str obj)). unfold to_node, py_ret. by repeat split.
Qed.

(** C9: when the validation hook raises on an object, [add_object] raises the
    same exception and the mapping after the call is the mapping before it. *)
Theorem add_object_atomic (obj : Obj) (self : SimpleObjectNodeMapping) (e : exn) :
  validate_object obj = Raise e ->
  add_object validate_object obj self = (Raise e, self).
Proof. apply add_object_rejected. Qed.

(** C4: [from_node] raises [KeyError] on a node whose content, metadata
    excluded, hashes to a key that the table does not hold.  When the table
    holds an object under that key the lookup does not fail: [from_node]
    returns that object, or raises what the validation hook raises on it (the
    hook of [SimpleObjectNodeMapping] never raises).  The table is left as it
    was. *)
Theorem from_node_KeyError (node : TextNode) (self : SimpleObjectNodeMapping) :
  (_objs self !! hash (get_content NONE node) = None ->
   from_node validate_object node self
   = (Raise (KeyError (hash (get_content NONE node))), self))
  ∧ (forall obj : Obj,
       _objs self !! hash (get_content NONE node) = Some obj ->
       _from_node node self = (Ok obj, self)
       ∧ (validate_object obj = Ok tt ->
          from_node validate_object node self = (Ok obj, self))
       ∧ (forall e, validate_object obj = Raise e ->
          from_node validate_object node self = (Raise e, self))).
Proof.
  unfold from_node, py_bind, _from_node, py_lift, py_ret. split.
  - by intros ->.
  - intros obj ->. split; [done|]. split.
    + by intros ->.
    + by intros e ->.
Qed.

(** ** Claims about persistence *)

Local Abbreviation write_table self dir fname :=
  (py_try
     (with_open_wb (concat_dirs dir fname) (pickle_dump (_objs self)))
     is_PickleError
     (fun err => py_raise (ValueError "Objs is not pickleable" (Some err)))).

Lemma OSError_not_PickleError (e : exn) :
  is_OSError e = true -> is_PickleError e = false.
Proof. by destruct e. Qed.

Lemma blocked_OSError (w : World) (path : string) (ancestors : list string)
    (e : exn) :
  blocked w path ancestors = Some e -> is_OSError e = true.
Proof.
  induction ancestors as [|a rest IH]; simpl; [done|].
  repeat case_bool_decide; [done | by intros [= <-] | by intros [= <-]].
Qed.

Lemma blocked_dirs (w w' : World) (path : string) (ancestors : list string) :
  dirs w' = dirs w ->
  blocked w path ancestors = None -> blocked w' path ancestors = None.
Proof.
  intros Hd. induction ancestors as [|a rest IH]; simpl; [done|].
  rewrite Hd. by repeat case_bool_decide.
Qed.

Lemma open_error_OSError (w : World) (path : string) (e : exn) :
  open_error w path = Some e -> is_OSError e = true.
Proof.
  unfold open_error. destruct (String.eqb path ""); [by intros [= <-]|].
  destruct (blocked w path (path_ancestors (strip_seps path))) as [e'|] eqn:Hb.
  - intros [= <-]. by eapply blocked_OSError.
  - destruct (ends_with_sep path); [|done].
    intros [= <-]. by case_bool_decide.
Qed.

Lemma open_error_dirs (w w' : World) (path : string) :
  dirs w' = dirs w ->
  open_error w path = None -> open_error w' path = None.
Proof.
  intros Hd. unfold open_error. destruct (String.eqb path ""); [done|].
  destruct (blocked w path (path_ancestors (strip_seps path))) eqn:Hb; [done|].
  rewrite (blocked_dirs w w') by done.
  by destruct (ends_with_sep path).
Qed.

Lemma write_table_open (self : SimpleObjectNodeMapping) (dir fname : string)
    (w : World) :
  concat_dirs dir fname ∉ dirs w ->
  open_error w (concat_dirs dir fname) = None ->
  write_table self dir fname w
  = (match snd (pickle_dump (_objs self)) with
     | None => Ok tt
     | Some e =>
         Raise (if is_PickleError e
                then ValueError "Objs is not pickleable" (Some e) else e)
     end,
     {| dirs := dirs w;
        files := <[concat_dirs dir fname := fst (pickle_dump (_objs self))]>
                   (files w) |}).
Proof.
  intros Hdir Hopen. unfold py_try, with_open_wb, py_raise.
  rewrite bool_decide_eq_false_2 by done. rewrite Hopen.
  destruct (snd (pickle_dump (_objs self))) as [e|]; [|done].
  by destruct (is_PickleError e).
Qed.

Lemma write_table_cases (self : SimpleObjectNodeMapping) (dir fname : string)
    (w : World) :
  (exists e, is_OSError e = true
             ∧ write_table self dir fname w = (Raise e, w))
  ∨ ((concat_dirs dir fname ∉ dirs w)
     ∧ open_error w (concat_dirs dir fname) = None).
Proof.
  destruct (decide (concat_dirs dir fname ∈ dirs w)) as [Hin|Hnin].
  - left. exists (IsADirectoryError (concat_dirs dir fname)). split; [done|].
    unfold py_try, with_open_wb. by rewrite bool_decide_eq_true_2.
  - destruct (open_error w (concat_dirs dir fname)) as [e|] eqn:Hopen.
    + left. exists e. pose proof (open_error_OSError _ _ _ Hopen) as Hos.
      split; [done|]. unfold py_try, with_open_wb.
      rewrite bool_decide_eq_false_2 by done. rewrite Hopen.
      by rewrite (OSError_not_PickleError e).
    + by right.
Qed.

Lemma makedirs_from_frame (leaf : string) (ancestors : list string)
    (w w1 : World) (r : result unit) :
  makedirs_from leaf ancestors w = (r, w1) ->
  files w1 = files w
  ∧ dirs w ⊆ dirs w1
  ∧ match r with
    | Ok _ => leaf ∈ dirs w1
    | Raise e => is_OSError e = true
    end.
Proof.
  revert w. induction ancestors as [|a rest IH]; intros w; simpl.
  - intros [= <- <-]. simpl. split; [done|].
    split; [apply union_subseteq_r|].
    apply elem_of_union_l. by apply elem_of_singleton.
  - case_bool_decide as Ha; [apply IH|].
    case_bool_decide as Hf.
    + intros [= <- <-]. by repeat split.
    + intros Hm. apply IH in Hm as (Hfiles & Hdirs & Hr). simpl in *.
      split; [done|]. split; [|done].
      etrans; [apply union_subseteq_r | exact Hdirs].
Qed.

Lemma os_makedirs_frame (path : string) (w w1 : World) (r : result unit) :
  os_makedirs path w = (r, w1) ->
  files w1 = files w
  ∧ dirs w ⊆ dirs w1
  ∧ match r with
    | Ok _ => path ∈ dirs w1
    | Raise e => is_OSError e = true
    end.
Proof.
  unfold os_makedirs. case_bool_decide; [by intros [= <- <-]|].
  destruct (String.eqb path ""); [by intros [= <- <-]|].
  apply makedirs_from_frame.
Qed.

Lemma persist_existing_dir (self : SimpleObjectNodeMapping)
    (dir fname : string) (w : World) :
  dir ∈ dirs w ∨ is_Some (files w !! dir) ->
  persist self dir fname w = write_table self dir fname w.
Proof.
  intros Hex. unfold persist, py_bind, os_path_exists.
  by rewrite bool_decide_eq_true_2.
Qed.

Lemma persist_prepared (self : SimpleObjectNodeMapping) (dir fname : string)
    (w : World) :
  exists w1 : World,
    files w1 = files w
    ∧ dirs w ⊆ dirs w1
    ∧ ((exists e, is_OSError e = true
                  ∧ persist self dir fname w = (Raise e, w1))
       ∨ ((dir ∈ dirs w1 ∨ is_Some (files w1 !! dir))
          ∧ persist self dir fname w = write_table self dir fname w1)).
Proof.
  destruct (decide (dir ∈ dirs w ∨ is_Some (files w !! dir))) as [Hex|Hnex].
  - exists w. split; [done|]. split; [done|]. right.
    split; [done | by apply persist_existing_dir].
  - unfold persist, py_bind, os_path_exists.
    rewrite bool_decide_eq_false_2 by done. simpl.
    destruct (os_makedirs dir w) as [r w1] eqn:Hmk.
    apply os_makedirs_frame in Hmk as (Hfiles & Hdirs & Hr).
    exists w1. split; [done|]. split; [done|].
    destruct r as [[]|e].
    + right. split; [by left | done].
    + left. by exists e.
Qed.

Lemma persist_Ok_world (self : SimpleObjectNodeMapping) (dir fname : string)
    (w w' : World) :
  persist self dir fname w = (Ok tt, w') ->
  exists w1 : World,
    files w1 = files w
    ∧ dirs w ⊆ dirs w1
    ∧ (dir ∈ dirs w1 ∨ is_Some (files w1 !! dir))
    ∧ (concat_dirs dir fname ∉ dirs w1)
    ∧ open_error w1 (concat_dirs dir fname) = None
    ∧ snd (pickle_dump (_objs self)) = None
    ∧ w' = {| dirs := dirs w1;
              files := <[concat_dirs dir fname
                         := fst (pickle_dump (_objs self))]> (files w1) |}.
Proof.
  destruct (persist_prepared self dir fname w)
    as (w1 & Hfiles & Hdirs & [(e & _ & ->)|[Hex ->]]); [done|].
  destruct (write_table_cases self dir fname w1)
    as [(e & _ & ->)|[Hdir Hopen]]; [done|].
  rewrite write_table_open by done.
  destruct (snd (pickle_dump (_objs self))) as [e|] eqn:Hdump; [done|].
  intros [= <-]. by exists w1.
Qed.


Lemma from_persist_dir_loaded (dir fname : string) (w : World) (bs : bytes)
    (table : gmap Z Obj) :
  concat_dirs dir fname ∉ dirs w ->
  files w !! concat_dirs dir fname = Some bs ->
  pickle_load bs = Ok table ->
  from_persist_dir validate_object dir fname w = (Ok {| _objs := table |}, w).
Proof.
  intros Hdir Hfile Hload.
  unfold from_persist_dir, py_bind, py_try, with_open_rb.
  rewrite bool_decide_eq_false_2 by done.
  by rewrite Hfile, Hload.
Qed.



(** ** Further properties of the table *)

Lemma or_empty_Some (objs : list Obj) : or_empty (Some objs) = objs.
Proof. by destruct objs. Qed.

Lemma py_for_validate_rejected (pre post : list Obj) (obj : Obj) (e : exn) :
  Forall accepted pre ->
  validate_object obj = Raise e ->
  py_for (pre ++ obj :: post) (fun o => py_lift (validate_object o)) tt
  = (Raise e, tt).
Proof.
  intros Hpre Hv. induction Hpre as [|x pre Hx _ IH]; simpl.
  - unfold py_bind, py_lift at 1. by rewrite Hv.
  - unfold py_bind, py_lift at 1. by rewrite Hx.
Qed.

Lemma py_for_add_object_accepted (adds : list Obj)
    (self : SimpleObjectNodeMapping) :
  Forall accepted adds ->
  py_for adds (add_object validate_object) self
  = (Ok tt,
     {| _objs := foldl (fun d o => <[hash (str o) := o]> d) (_objs self) adds |}).
Proof.
  intros Hadds. revert self.
  induction Hadds as [|x adds Hx _ IH]; intros self; simpl.
  - by destruct self.
  - unfold py_bind at 1. rewrite add_object_accepted by done. by rewrite IH.
Qed.

(** X1: when the hook accepts every object, the constructor on a sequence
    builds the mapping that [add_object], called on the objects in order,
    builds from the empty mapping. *)
Theorem from_objects_as_adds (objs : list Obj) :
  Forall accepted objs ->
  exists empty self : SimpleObjectNodeMapping,
    __init__ validate_object None = Ok empty
    ∧ from_objects validate_object objs = Ok self
    ∧ py_for objs (add_object validate_object) empty = (Ok tt, self).
Proof.
  intros Hobjs.
  exists {| _objs := ∅ |}, {| _objs := dict_of_objs objs |}.
  split; [done|]. split.
  - unfold from_objects. rewrite init_accepted; by rewrite or_empty_Some.
  - by rewrite py_for_add_object_accepted.
Qed.

(** X2: the constructor validates every object before it builds the table:
    when the hook rejects an object and accepts those before it, the
    constructor raises the exception of that object and no mapping exists,
    whatever follows in the sequence. *)
Theorem from_objects_rejected (pre post : list Obj) (obj : Obj) (e : exn) :
  Forall accepted pre ->
  validate_object obj = Raise e ->
  from_objects validate_object (pre ++ obj :: post) = Raise e.
Proof.
  intros Hpre Hv. unfold from_objects, __init__.
  rewrite or_empty_Some. by rewrite (py_for_validate_rejected pre post obj e).
Qed.

(** X3: a run of [add_object] calls stops at the first rejected object and
    is not undone: the objects before it stay registered, those after it are
    never added. *)
Theorem add_objects_rejected (pre post : list Obj) (obj : Obj) (e : exn)
    (self : SimpleObjectNodeMapping) :
  Forall accepted pre ->
  validate_object obj = Raise e ->
  py_for (pre ++ obj :: post) (add_object validate_object) self
  = (Raise e,
     {| _objs := foldl (fun d o => <[hash (str o) := o]> d) (_objs self) pre |}).
Proof.
  intros Hpre Hv. revert self.
  induction Hpre as [|x pre Hx _ IH]; intros self; simpl.
  - unfold py_bind. rewrite (add_object_rejected _ _ e) by done.
    by destruct self.
  - unfold py_bind at 1. rewrite add_object_accepted by done. by rewrite IH.
Qed.

(** X4: an object that [add_object] has just accepted is what
    [from_node (to_node obj)] returns, whatever the table held under its key
    before. *)
Theorem add_object_then_roundtrip (obj : Obj) (self : SimpleObjectNodeMapping) :
  validate_object obj = Ok tt ->
  (add_object validate_object obj ;; node_roundtrip validate_object obj) self
  = (Ok obj, {| _objs := <[hash (str obj) := obj]> (_objs self) |}).
Proof.
  intros Hv. unfold py_bind at 1. rewrite add_object_accepted by done.
  unfold node_roundtrip, py_bind, to_node, py_ret.
  apply from_node_lookup; [|done]. simpl. apply lookup_insert_eq.
Qed.

(** X5: [add_object] changes the answer of [from_node] only for nodes whose
    content hashes to the key of the added object. *)
Theorem add_object_other_keys (obj : Obj) (node : TextNode)
    (self self' : SimpleObjectNodeMapping) (r : result unit) :
  add_object validate_object obj self = (r, self') ->
  hash (get_content NONE node) ≠ hash (str obj) ->
  fst (from_node validate_object node self')
  = fst (from_node validate_object node self).
Proof.
  intros Hadd Hk.
  apply add_object_inv in Hadd as [(_ & _ & Ht)|(e & _ & _ & ->)]; [|done].
  unfold from_node, py_bind, _from_node. simpl.
  rewrite Ht, lookup_insert_ne by (by apply not_eq_sym).
  destruct (_objs self !! hash (text node)) as [o|]; [|done].
  by destruct (validate_object o).
Qed.

(** X6: adding an object twice in a row leaves the mapping that adding it
    once leaves, and has the same outcome. *)
Theorem add_object_twice (obj : Obj) (self : SimpleObjectNodeMapping) :
  (add_object validate_object obj ;; add_object validate_object obj) self
  = add_object validate_object obj self.
Proof.
  unfold py_bind. destruct (validate_object obj) as [[]|e] eqn:Hv.
  - rewrite !add_object_accepted by done. simpl. by rewrite insert_insert_eq.
  - by rewrite !(add_object_rejected _ _ e).
Qed.

(** X7: two accepted objects with different keys can be added in either
    order: the resulting mapping is the same. *)
Theorem add_object_commute (obj1 obj2 : Obj) (self : SimpleObjectNodeMapping) :
  validate_object obj1 = Ok tt ->
  validate_object obj2 = Ok tt ->
  hash (str obj1) ≠ hash (str obj2) ->
  (add_object validate_object obj1 ;; add_object validate_object obj2) self
  = (add_object validate_object obj2 ;; add_object validate_object obj1) self.
Proof.
  intros Hv1 Hv2 Hk. unfold py_bind.
  rewrite !add_object_accepted by done. simpl.
  by rewrite insert_insert_ne.
Qed.

(** X8: in a mapping made by the constructor and [add_object] calls,
    [from_node] only ever returns an object that was registered, that the
    hook accepted, and whose string form hashes to the key of the node; the
    mapping is left as it was. *)
Theorem from_node_returns_registered (reg : list Obj) (node : TextNode)
    (self self' : SimpleObjectNodeMapping) (obj : Obj) :
  Built validate_object reg self ->
  from_node validate_object node self = (Ok obj, self') ->
  obj ∈ reg
  ∧ hash (get_content NONE node) = hash (str obj)
  ∧ validate_object obj = Ok tt
  ∧ self' = self.
Proof.
  intros HB Hfn.
  destruct (Built_table _ _ HB) as [Ht Hacc].
  pose proof (from_node_Ok_lookup _ _ _ _ Hfn) as Hl.
  pose proof Hl as Hl'.
  rewrite Ht in Hl'. apply dict_of_objs_lookup_Some in Hl' as [Hin Hk].
  assert (validate_object obj = Ok tt) as Hv
    by (by eapply (proj1 (Forall_forall _ _)) in Hacc).
  rewrite (from_node_lookup node self obj Hl Hv) in Hfn.
  repeat split; try done. congruence.
Qed.
(** X9: the lookup goes by the hash of the node content alone: the node of
    any object, registered or not, whose string form hashes to the key of a
    registered object leads to that registered object (the one that holds the
    key alone). *)
Theorem from_node_by_hash_alone (reg : list Obj)
    (self : SimpleObjectNodeMapping) (obj other : Obj) :
  Built validate_object reg self ->
  obj ∈ reg ->
  (forall obj', obj' ∈ reg -> hash (str obj') = hash (str obj) -> obj' = obj) ->
  hash (str other) = hash (str obj) ->
  node_roundtrip validate_object other self = (Ok obj, self).
Proof.
  intros HB Hin Huniq Hcoll.
  destruct (Built_table _ _ HB) as [Ht Hacc].
  destruct (dict_of_objs_registered reg obj Hin) as [obj' Hl].
  destruct (dict_of_objs_lookup_Some _ _ _ Hl) as [Hin' Hk].
  assert (obj' = obj) as -> by (apply Huniq; [done | congruence]).
  unfold node_roundtrip, py_bind, to_node, py_ret.
  apply from_node_lookup.
  - simpl. by rewrite Hcoll, Ht.
  - by eapply (proj1 (Forall_forall _ _)) in Hacc.
Qed.

Lemma dict_of_objs_dom (objs : list Obj) :
  dom (dict_of_objs objs) = list_to_set ((fun o => hash (str o)) <$> objs).
Proof.
  induction objs as [|x objs IH] using rev_ind.
  - unfold dict_of_objs. simpl. apply dom_empty_L.
  - rewrite dict_of_objs_snoc, dom_insert_L, IH, fmap_app, list_to_set_app_L.
    simpl. rewrite (right_id_L ∅ (∪)). apply (comm_L (∪)).
Qed.

Lemma dict_of_objs_size (objs : list Obj) :
  (size (dict_of_objs objs) <= length objs)%nat.
Proof.
  induction objs as [|x objs IH] using rev_ind.
  - unfold dict_of_objs. simpl. by rewrite map_size_empty.
  - rewrite dict_of_objs_snoc, length_app. simpl.
    destruct (dict_of_objs objs !! hash (str x)) as [o|] eqn:Hl.
    + rewrite map_size_insert_Some by eauto. lia.
    + rewrite map_size_insert_None by done. lia.
Qed.

(** X10: in a mapping made by the constructor and [add_object] calls, the
    keys of the table are exactly the hashes of the string forms of the
    registered objects, so the table never holds more entries than objects
    were registered, and holds fewer when keys collide. *)
Theorem Built_keys (reg : list Obj) (self : SimpleObjectNodeMapping) :
  Built validate_object reg self ->
  dom (_objs self) = list_to_set ((fun o => hash (str o)) <$> reg)
  ∧ (size (_objs self) <= length reg)%nat.
Proof.
  intros HB. destruct (Built_table _ _ HB) as [-> _].
  split; [apply dict_of_objs_dom | apply dict_of_objs_size].
Qed.

(** X11: [to_nodes] returns one node per object, in the order of the
    objects, each the node that [to_node] returns for its object, and leaves
    the mapping as it was. *)
Theorem to_nodes_pointwise (objs : list Obj) (self : SimpleObjectNodeMapping) :
  exists nodes : list TextNode,
    to_nodes objs self = (Ok nodes, self)
    ∧ length nodes = length objs
    ∧ forall (i : nat) (obj : Obj),
        objs !! i = Some obj ->
        exists node, nodes !! i = Some node
                     ∧ to_node obj self = (Ok node, self)
                     ∧ get_content NONE node = str obj.
Proof.
  exists (map (fun obj => TextNode_of_text (str obj)) objs).
  split; [apply to_nodes_map|]. split; [apply length_map|].
  intros i obj Hi. exists (TextNode_of_text (str obj)).
  split; [|done]. by rewrite list_lookup_fmap, Hi.
Qed.

(** X12: the constructor called without objects, or with an empty sequence,
    builds the empty mapping under every hook, and [from_node] then raises
    [KeyError] on every node. *)
Theorem init_empty (node : TextNode) :
  exists self : SimpleObjectNodeMapping,
    __init__ validate_object None = Ok self
    ∧ __init__ validate_object (Some []) = Ok self
    ∧ _objs self = ∅
    ∧ from_node validate_object node self
      = (Raise (KeyError (hash (get_content NONE node))), self).
Proof.
  exists {| _objs := ∅ |}. repeat split.
Qed.
(** ** Further properties of persistence *)

(** X13: whatever its outcome, [persist] removes no directory and touches
    no file other than the target file. *)
Theorem persist_keeps_others (self : SimpleObjectNodeMapping)
    (dir fname : string) (w : World) :
  dirs w ⊆ dirs (snd (persist self dir fname w))
  ∧ forall path : string,
      path ≠ concat_dirs dir fname ->
      files (snd (persist self dir fname w)) !! path = files w !! path.
Proof.
  destruct (persist_prepared self dir fname w)
    as (w1 & Hfiles & Hdirs & [(e & _ & ->)|[_ ->]]); simpl.
  - split; [done|]. intros path _. by rewrite Hfiles.
  - destruct (write_table_cases self dir fname w1)
      as [(e & _ & ->)|[Hdir Hopen]]; simpl.
    + split; [done|]. intros path _. by rewrite Hfiles.
    + rewrite write_table_open by done. simpl. split; [done|].
      intros path Hne. by rewrite lookup_insert_ne, Hfiles.
Qed.

(** X14: when [persist] returns normally, [pickle.dump] did not raise, the
    directory exists, and the target path names a regular file that holds
    what [pickle.dump] wrote. *)
Theorem persist_returns_written (self : SimpleObjectNodeMapping)
    (dir fname : string) (w w' : World) :
  persist self dir fname w = (Ok tt, w') ->
  snd (pickle_dump (_objs self)) = None
  ∧ (dir ∈ dirs w' ∨ is_Some (files w' !! dir))
  ∧ (concat_dirs dir fname ∉ dirs w')
  ∧ files w' !! concat_dirs dir fname = Some (fst (pickle_dump (_objs self))).
Proof.
  intros Hp. apply persist_Ok_world in Hp
    as (w1 & _ & _ & Hex & Hdir & _ & Hdump & ->). simpl.
  split; [done|]. split; [|split; [done | by rewrite lookup_insert_eq]].
  destruct Hex as [?|Hfile]; [by left|]. right.
  destruct (decide (concat_dirs dir fname = dir)) as [->|Hne].
  - rewrite lookup_insert_eq. eauto.
  - by rewrite lookup_insert_ne.
Qed.

(** X15: a [persist] that returned normally can be repeated: the second call
    returns normally too and leaves the file system as the first left it. *)
Theorem persist_twice (self : SimpleObjectNodeMapping) (dir fname : string)
    (w w' : World) :
  persist self dir fname w = (Ok tt, w') ->
  persist self dir fname w' = (Ok tt, w').
Proof.
  intros Hp. apply persist_Ok_world in Hp
    as (w1 & _ & _ & Hex & Hdir & Hopen & Hdump & ->).
  rewrite persist_existing_dir; simpl.
  - rewrite write_table_open; simpl.
    + rewrite Hdump. by rewrite insert_insert_eq.
    + done.
    + by apply (open_error_dirs w1).
  - destruct Hex as [?|Hfile]; [by left|]. right.
    destruct (decide (concat_dirs dir fname = dir)) as [->|Hne].
    + rewrite lookup_insert_eq. eauto.
    + by rewrite lookup_insert_ne.
Qed.

(** X16: a [ValueError] with a cause leaves [persist] only after the target
    file was opened for writing: [pickle.dump] raised, and the file holds
    whatever it wrote before raising, not what the file held before. *)
Theorem persist_failure_overwrites (self : SimpleObjectNodeMapping)
    (dir fname : string) (w : World) (msg : string) (cause : exn) :
  fst (persist self dir fname w) = Raise (ValueError msg (Some cause)) ->
  is_Some (snd (pickle_dump (_objs self)))
  ∧ files (snd (persist self dir fname w)) !! concat_dirs dir fname
    = Some (fst (pickle_dump (_objs self))).
Proof.
  destruct (persist_prepared self dir fname w)
    as (w1 & _ & _ & [(e & Hos & ->)|[_ ->]]); simpl.
  - intros [= ->]. done.
  - destruct (write_table_cases self dir fname w1)
      as [(e & Hos & ->)|[Hdir Hopen]]; simpl.
    + intros [= ->]. done.
    + rewrite write_table_open by done. simpl.
      destruct (snd (pickle_dump (_objs self))) as [e|]; [|done].
      intros _. split; [eauto | by rewrite lookup_insert_eq].
Qed.

(** X17: when the directory exists and the target path names a directory,
    [persist] raises the [IsADirectoryError] of [open], not wrapped in a
    [ValueError], and changes no file. *)
Theorem persist_onto_directory (self : SimpleObjectNodeMapping)
    (dir fname : string) (w : World) :
  dir ∈ dirs w ∨ is_Some (files w !! dir) ->
  concat_dirs dir fname ∈ dirs w ->
  fst (persist self dir fname w)
  = Raise (IsADirectoryError (concat_dirs dir fname))
  ∧ files (snd (persist self dir fname w)) = files w.
Proof.
  intros Hex Hin. rewrite persist_existing_dir by done.
  unfold py_try, with_open_wb. by rewrite bool_decide_eq_true_2.
Qed.

(** X20: with the empty string as directory, [persist] raises the
    [FileNotFoundError] of [os.makedirs] and leaves the file system as it
    was. *)
Theorem persist_empty_dir (self : SimpleObjectNodeMapping) (fname : string)
    (w : World) :
  "" ∉ dirs w ->
  files w !! "" = None ->
  persist self "" fname w = (Raise (FileNotFoundError ""), w).
Proof.
  intros Hdir Hfile.
  assert (~ ("" ∈ dirs w ∨ is_Some (files w !! ""))) as Hnex.
  { intros [?|Hs]; [done|]. rewrite Hfile in Hs. by destruct Hs. }
  unfold persist, py_bind, os_path_exists, os_makedirs.
  rewrite bool_decide_eq_false_2 by done. simpl.
  by rewrite bool_decide_eq_false_2.
Qed.

(** X18: [from_persist_dir] never changes the file system, and its outcome
    is the same under every validation hook: the table it loads is not
    validated. *)
Theorem from_persist_dir_reads_only (validate_object' : Obj -> result unit)
    (dir fname : string) (w : World) :
  snd (from_persist_dir validate_object dir fname w) = w
  ∧ from_persist_dir validate_object dir fname w
    = from_persist_dir validate_object' dir fname w.
Proof.
  unfold from_persist_dir, py_bind, py_try, with_open_rb, py_raise.
  case_bool_decide; [done|].
  destruct (files w !! concat_dirs dir fname) as [bs|]; [|done].
  destruct (pickle_load bs) as [table|e]; [done|].
  by destruct (is_PickleError e).
Qed.

(** X19: a table read from a file is taken as it is: when it holds, under
    its key, an object that the validation hook rejects, [from_persist_dir]
    still returns a mapping with that table, and [from_node] on the node of
    the object raises the exception of the hook. *)
Theorem from_persist_dir_unvalidated (dir fname : string) (w : World)
    (bs : bytes) (table : gmap Z Obj) (obj : Obj) (e : exn) :
  concat_dirs dir fname ∉ dirs w ->
  files w !! concat_dirs dir fname = Some bs ->
  pickle_load bs = Ok table ->
  table !! hash (str obj) = Some obj ->
  validate_object obj = Raise e ->
  from_persist_dir validate_object dir fname w = (Ok {| _objs := table |}, w)
  ∧ node_roundtrip validate_object obj {| _objs := table |}
    = (Raise e, {| _objs := table |})
  ∧ from_objects validate_object [obj] = Raise e.
Proof.
  intros Hdir Hfile Hload Hl Hv. split; [by eapply from_persist_dir_loaded|].
  split.
  - unfold node_roundtrip, from_node, py_bind, to_node, py_ret, _from_node,
      py_lift. simpl. by rewrite Hl, Hv.
  - unfold from_objects, __init__. simpl. unfold py_bind, py_lift.
    by rewrite Hv.
Qed.
End Properties.


(** * The theorems on inputs *)

Section Examples.
Import Demo.
#[local] Existing Instance Demo.runtime.

(** C1 on [SimpleObjectNodeMapping([42, "hello"])] after [add_object(7)]:
    the node of ["hello"] leads back to ["hello"]. *)
Lemma from_node_to_node_registered_witness :
  exists self : SimpleObjectNodeMapping,
    Built validate_object_base [PyInt 42; PyStr "hello"; PyInt 7] self
    ∧ node_roundtrip validate_object_base (PyStr "hello") self
      = (Ok (PyStr "hello"), self).
Proof.
  pose proof (Built_init validate_object_base
                (Some [PyInt 42; PyStr "hello"]) _ eq_refl) as H0.
  pose proof (Built_add _ _ _ (PyInt 7) _ H0 eq_refl) as H1.
  eexists. split; [exact H1|].
  apply (from_node_to_node_registered _ _ _ _ H1).
  - simpl. repeat constructor.
  - intros obj' Hin Hh. simpl in Hin.
    repeat (apply elem_of_cons in Hin as [->|Hin]);
      [vm_compute in Hh; discriminate | reflexivity
      | vm_compute in Hh; discriminate | by apply elem_of_nil in Hin].
Defined.



(** C3 on [42] and ["42"], whose string forms are both ["42"]: registered by
    the constructor alone, and by the constructor then [add_object]. *)
Lemma last_write_wins_witness :
  (exists self : SimpleObjectNodeMapping,
     __init__ validate_object_base (Some [PyInt 42; PyStr "42"]) = Ok self
     ∧ node_roundtrip validate_object_base (PyInt 42) self
       = (Ok (PyStr "42"), self))
  ∧ (exists self : SimpleObjectNodeMapping,
       Built validate_object_base [PyInt 42; PyStr "hello"; PyStr "42"] self
       ∧ _objs self !! hash (str (PyInt 42)) = Some (PyStr "42")
       ∧ node_roundtrip validate_object_base (PyInt 42) self
         = (Ok (PyStr "42"), self)
       ∧ node_roundtrip validate_object_base (PyStr "42") self
         = (Ok (PyStr "42"), self)
       ∧ forall node,
           fst (from_node validate_object_base node self) ≠ Ok (PyInt 42)).
Proof.
  split.
  - pose proof (Built_init validate_object_base
                  (Some [PyInt 42; PyStr "42"]) _ eq_refl) as H0.
    eexists. split; [reflexivity|].
    refine (proj1 (proj2 (last_write_wins (RT := runtime) validate_object_base
                            [] [] [] (PyInt 42) (PyStr "42") _ H0 _ _ _)));
      [discriminate | reflexivity | constructor].
  - pose proof (Built_init validate_object_base
                  (Some [PyInt 42; PyStr "hello"]) _ eq_refl) as H0.
    pose proof (Built_add _ _ _ (PyStr "42") _ H0 eq_refl) as H1.
    eexists. split; [exact H1|].
    apply (last_write_wins (RT := runtime) validate_object_base
             [] [PyStr "hello"] [] (PyInt 42) (PyStr "42") _ H1).
    + discriminate.
    + reflexivity.
    + constructor.
Defined.

(** C4 on [SimpleObjectNodeMapping([42, "hello"])]: a node with unregistered
    content, and the node of ["hello"]. *)
Lemma from_node_KeyError_witness :
  from_node validate_object_base (TextNode_of_text "absent") seeded
  = (Raise (KeyError (hash "absent")), seeded)
  ∧ from_node validate_object_base (TextNode_of_text "hello") seeded
    = (Ok (PyStr "hello"), seeded).
Proof.
  split.
  - apply (proj1 (from_node_KeyError validate_object_base
                    (TextNode_of_text "absent") seeded)).
    vm_compute. reflexivity.
  - assert (_objs seeded !! hash (get_content NONE (TextNode_of_text "hello"))
            = Some (PyStr "hello")) as Hl by (vm_compute; reflexivity).
    apply (proj2 (from_node_KeyError validate_object_base
                    (TextNode_of_text "hello") seeded) _ Hl).
    reflexivity.
Defined.

(** On a table that holds a lambda [pickle.dump] raises [PicklingError],
    and [persist] raises [ValueError] with that exception as its cause. *)
Lemma persist_lambda_wrapped :
  snd (pickle_dump (_objs with_lambda)) = Some lambda_error
  ∧ fst (persist with_lambda "storage" DEFAULT_PERSIST_FNAME empty_world)
    = Raise (ValueError "Objs is not pickleable" (Some lambda_error)).
Proof. split; vm_compute; reflexivity. Qed.

(** C5: on a table that holds an open file [pickle.dump] raises
    [TypeError]; the handler of [persist], which turns pickling failures into
    [ValueError("Objs is not pickleable")], only catches
    [pickle.PickleError], so the [TypeError] leaves [persist] as it is and no
    [ValueError] with a cause is raised. *)
Lemma persist_open_file_not_wrapped :
  (exists obj : PyObj,
     _objs with_file !! hash (str obj) = Some obj ∧ pickling_error obj ≠ None)
  ∧ snd (pickle_dump (_objs with_file)) = Some file_error
  ∧ fst (persist with_file "storage" DEFAULT_PERSIST_FNAME empty_world)
    = Raise file_error
  ∧ ~ (exists msg cause,
         fst (persist with_file "storage" DEFAULT_PERSIST_FNAME empty_world)
         = Raise (ValueError msg (Some cause))).
Proof.
  assert (fst (persist with_file "storage" DEFAULT_PERSIST_FNAME empty_world)
          = Raise file_error) as Hp by (vm_compute; reflexivity).
  split; [|split; [|split]].
  - exists (PyFile "log.txt"). split; [vm_compute; reflexivity | discriminate].
  - vm_compute. reflexivity.
  - exact Hp.
  - rewrite Hp. intros (msg & cause & [=]).
Qed.



(** C7 on the mapping of the C3 example. *)
Lemma table_inv_Built_witness :
  exists self : SimpleObjectNodeMapping,
    Built validate_object_base [PyInt 42; PyStr "hello"; PyStr "42"] self
    ∧ table_inv self.
Proof.
  pose proof (Built_init validate_object_base
                (Some [PyInt 42; PyStr "hello"]) _ eq_refl) as H0.
  pose proof (Built_add _ _ _ (PyStr "42") _ H0 eq_refl) as H1.
  eexists. split; [exact H1|].
  exact (table_inv_Built validate_object_base _ _ H1).
Defined.

(** C9 with a hook that accepts integers only: adding ["hello"] raises and
    leaves the mapping as it was. *)
Lemma add_object_atomic_witness :
  validate_int (PyStr "hello") = Raise (ValueError "expected an int" None)
  ∧ add_object validate_int (PyStr "hello") seeded
    = (Raise (ValueError "expected an int" None), seeded).
Proof.
  split; [reflexivity|].
  apply (add_object_atomic (RT := runtime) validate_int). reflexivity.
Defined.

End Examples.


(** * The further properties on inputs *)

Section MoreExamples.
Import Demo.
#[local] Existing Instance Demo.runtime.

(** X1 on [[42, 7]] with a hook that accepts integers only. *)
Lemma from_objects_as_adds_witness :
  exists empty self : SimpleObjectNodeMapping,
    __init__ validate_int None = Ok empty
    ∧ from_objects validate_int [PyInt 42; PyInt 7] = Ok self
    ∧ py_for [PyInt 42; PyInt 7] (add_object validate_int) empty = (Ok tt, self).
Proof.
  apply (from_objects_as_adds (RT := runtime) validate_int [PyInt 42; PyInt 7]).
  repeat constructor.
Defined.

(** X2 on [[42, "hello", 7]] with that hook: ["hello"] is rejected. *)
Lemma from_objects_rejected_witness :
  from_objects validate_int ([PyInt 42] ++ PyStr "hello" :: [PyInt 7])
  = Raise (ValueError "expected an int" None).
Proof.
  apply (from_objects_rejected (RT := runtime) validate_int
           [PyInt 42] [PyInt 7] (PyStr "hello")).
  - repeat constructor.
  - reflexivity.
Defined.

(** X3 on the same sequence, added to the empty mapping: [42] stays
    registered, [7] is never added. *)
Lemma add_objects_rejected_witness :
  py_for ([PyInt 42] ++ PyStr "hello" :: [PyInt 7]) (add_object validate_int)
    {| _objs := ∅ |}
  = (Raise (ValueError "expected an int" None),
     {| _objs := <[hash (str (PyInt 42)) := PyInt 42]> ∅ |}).
Proof.
  apply (add_objects_rejected (RT := runtime) validate_int
           [PyInt 42] [PyInt 7] (PyStr "hello") _ {| _objs := ∅ |}).
  - repeat constructor.
  - reflexivity.
Defined.

(** X4 on ["42"], added to a mapping that holds [42] under the same key. *)
Lemma add_object_then_roundtrip_witness :
  (add_object validate_object_base (PyStr "42") ;;
   node_roundtrip validate_object_base (PyStr "42")) seeded
  = (Ok (PyStr "42"),
     {| _objs := <[hash (str (PyStr "42")) := PyStr "42"]> (_objs seeded) |}).
Proof.
  apply (add_object_then_roundtrip (RT := runtime) validate_object_base
           (PyStr "42") seeded).
  reflexivity.
Defined.

(** X5: adding [7] does not change what the node of ["hello"] leads to. *)
Lemma add_object_other_keys_witness :
  fst (from_node validate_object_base (TextNode_of_text "hello")
         (snd (add_object validate_object_base (PyInt 7) seeded)))
  = fst (from_node validate_object_base (TextNode_of_text "hello") seeded).
Proof.
  apply (add_object_other_keys (RT := runtime) validate_object_base (PyInt 7)
           (TextNode_of_text "hello") seeded _ (Ok tt)).
  - reflexivity.
  - vm_compute. discriminate.
Defined.

(** X7 on [7] and ["world"], added to a mapping in either order. *)
Lemma add_object_commute_witness :
  (add_object validate_object_base (PyInt 7) ;;
   add_object validate_object_base (PyStr "world")) seeded
  = (add_object validate_object_base (PyStr "world") ;;
     add_object validate_object_base (PyInt 7)) seeded.
Proof.
  apply (add_object_commute (RT := runtime) validate_object_base
           (PyInt 7) (PyStr "world") seeded).
  - reflexivity.
  - reflexivity.
  - vm_compute. discriminate.
Defined.

(** X8 on [SimpleObjectNodeMapping([42, "hello"])] and the node of
    ["hello"]. *)
Lemma from_node_returns_registered_witness :
  exists self : SimpleObjectNodeMapping,
    Built validate_object_base [PyInt 42; PyStr "hello"] self
    ∧ from_node validate_object_base (TextNode_of_text "hello") self
      = (Ok (PyStr "hello"), self)
    ∧ PyStr "hello" ∈ [PyInt 42; PyStr "hello"]
    ∧ hash (get_content NONE (TextNode_of_text "hello"))
      = hash (str (PyStr "hello")).
Proof.
  pose proof (Built_init validate_object_base
                (Some [PyInt 42; PyStr "hello"]) _ eq_refl) as H0.
  eexists. split; [exact H0|].
  assert (from_node validate_object_base (TextNode_of_text "hello")
            {| _objs := dict_of_objs [PyInt 42; PyStr "hello"] |}
          = (Ok (PyStr "hello"),
             {| _objs := dict_of_objs [PyInt 42; PyStr "hello"] |}))
    as Hfn by reflexivity.
  split; [exact Hfn|].
  destruct (from_node_returns_registered (RT := runtime) validate_object_base
              _ _ _ _ _ H0 Hfn) as (Hin & Hk & _ & _).
  split; [exact Hin | exact Hk].
Defined.

(** X9: ["42"] was never registered, and its node leads to [42]. *)
Lemma from_node_by_hash_alone_witness :
  exists self : SimpleObjectNodeMapping,
    Built validate_object_base [PyInt 42; PyStr "hello"] self
    ∧ node_roundtrip validate_object_base (PyStr "42") self
      = (Ok (PyInt 42), self).
Proof.
  pose proof (Built_init validate_object_base
                (Some [PyInt 42; PyStr "hello"]) _ eq_refl) as H0.
  eexists. split; [exact H0|].
  apply (from_node_by_hash_alone (RT := runtime) validate_object_base
           _ _ (PyInt 42) (PyStr "42") H0).
  - simpl. repeat constructor.
  - intros obj' Hin Hh. simpl in Hin.
    repeat (apply elem_of_cons in Hin as [->|Hin]);
      [reflexivity | vm_compute in Hh; discriminate
      | by apply elem_of_nil in Hin].
  - reflexivity.
Defined.

(** X10 on three registered objects, two of which share a key. *)
Lemma Built_keys_witness :
  exists self : SimpleObjectNodeMapping,
    Built validate_object_base [PyInt 42; PyStr "hello"; PyStr "42"] self
    ∧ dom (_objs self)
      = list_to_set ((fun o => hash (str o))
                       <$> [PyInt 42; PyStr "hello"; PyStr "42"])
    ∧ (size (_objs self) <= 3)%nat.
Proof.
  pose proof (Built_init validate_object_base
                (Some [PyInt 42; PyStr "hello"; PyStr "42"]) _ eq_refl) as H0.
  eexists. split; [exact H0|].
  exact (Built_keys (RT := runtime) validate_object_base _ _ H0).
Defined.

(** X14 on [SimpleObjectNodeMapping([42, "hello"])] and an empty file
    system. *)
Lemma persist_returns_written_witness :
  exists w' : World,
    persist seeded "storage" DEFAULT_PERSIST_FNAME empty_world = (Ok tt, w')
    ∧ snd (pickle_dump (_objs seeded)) = None
    ∧ ("storage" ∈ dirs w' ∨ is_Some (files w' !! "storage"))
    ∧ (concat_dirs "storage" DEFAULT_PERSIST_FNAME ∉ dirs w')
    ∧ files w' !! concat_dirs "storage" DEFAULT_PERSIST_FNAME
      = Some (fst (pickle_dump (_objs seeded))).
Proof.
  assert (fst (persist seeded "storage" DEFAULT_PERSIST_FNAME empty_world)
          = Ok tt) as Hfst by (vm_compute; reflexivity).
  destruct (persist seeded "storage" DEFAULT_PERSIST_FNAME empty_world)
    as [r w'] eqn:Hp.
  simpl in Hfst. subst r.
  exists w'. split; [reflexivity|].
  exact (persist_returns_written (RT := runtime) seeded "storage"
           DEFAULT_PERSIST_FNAME empty_world w' Hp).
Defined.

(** X15 on the same mapping, persisted twice. *)
Lemma persist_twice_witness :
  exists w' : World,
    persist seeded "storage" DEFAULT_PERSIST_FNAME empty_world = (Ok tt, w')
    ∧ persist seeded "storage" DEFAULT_PERSIST_FNAME w' = (Ok tt, w').
Proof.
  assert (fst (persist seeded "storage" DEFAULT_PERSIST_FNAME empty_world)
          = Ok tt) as Hfst by (vm_compute; reflexivity).
  destruct (persist seeded "storage" DEFAULT_PERSIST_FNAME empty_world)
    as [r w'] eqn:Hp.
  simpl in Hfst. subst r.
  exists w'. split; [reflexivity|].
  exact (persist_twice (RT := runtime) seeded "storage" DEFAULT_PERSIST_FNAME
           empty_world w' Hp).
Defined.

(** X16 on a table that holds a lambda, persisted over a file that was the
    pickle of another table. *)
Lemma persist_failure_overwrites_witness :
  files pickled_world !! concat_dirs "storage" DEFAULT_PERSIST_FNAME
  = Some (Pickled [(poly_hash "hello", PyStr "hello")])
  ∧ fst (persist with_lambda "storage" DEFAULT_PERSIST_FNAME pickled_world)
    = Raise (ValueError "Objs is not pickleable" (Some lambda_error))
  ∧ is_Some (snd (pickle_dump (_objs with_lambda)))
  ∧ files (snd (persist with_lambda "storage" DEFAULT_PERSIST_FNAME
                  pickled_world))
      !! concat_dirs "storage" DEFAULT_PERSIST_FNAME
    = Some (fst (pickle_dump (_objs with_lambda))).
Proof.
  assert (fst (persist with_lambda "storage" DEFAULT_PERSIST_FNAME
                 pickled_world)
          = Raise (ValueError "Objs is not pickleable" (Some lambda_error)))
    as Hp by (vm_compute; reflexivity).
  split; [vm_compute; reflexivity|]. split; [exact Hp|].
  exact (persist_failure_overwrites (RT := runtime) with_lambda "storage"
           DEFAULT_PERSIST_FNAME pickled_world _ _ Hp).
Defined.

(** X17 on a file system in which the target path names a directory. *)
Lemma persist_onto_directory_witness :
  fst (persist seeded "storage" DEFAULT_PERSIST_FNAME dir_world)
  = Raise (IsADirectoryError (concat_dirs "storage" DEFAULT_PERSIST_FNAME))
  ∧ files (snd (persist seeded "storage" DEFAULT_PERSIST_FNAME dir_world))
    = files dir_world.
Proof.
  apply (persist_onto_directory (RT := runtime) seeded "storage"
           DEFAULT_PERSIST_FNAME dir_world).
  - left. unfold dir_world. simpl.
    apply elem_of_union_r. by apply elem_of_singleton.
  - unfold dir_world. simpl. apply elem_of_union_l. by apply elem_of_singleton.
Defined.

(** X19 with the hook that accepts integers only, on a file that holds the
    string ["hello"]. *)
Lemma from_persist_dir_unvalidated_witness :
  from_persist_dir validate_int "storage" DEFAULT_PERSIST_FNAME pickled_world
  = (Ok {| _objs := list_to_map [(poly_hash "hello", PyStr "hello")] |},
     pickled_world)
  ∧ node_roundtrip validate_int (PyStr "hello")
      {| _objs := list_to_map [(poly_hash "hello", PyStr "hello")] |}
    = (Raise (ValueError "expected an int" None),
       {| _objs := list_to_map [(poly_hash "hello", PyStr "hello")] |})
  ∧ from_objects validate_int [PyStr "hello"]
    = Raise (ValueError "expected an int" None).
Proof.
  apply (from_persist_dir_unvalidated (RT := runtime) validate_int "storage"
           DEFAULT_PERSIST_FNAME pickled_world
           (Pickled [(poly_hash "hello", PyStr "hello")])).
  - vm_compute. intros [=].
  - vm_compute. reflexivity.
  - reflexivity.
  - vm_compute. reflexivity.
  - reflexivity.
Defined.

(** X20 on an empty file system. *)
Lemma persist_empty_dir_witness :
  persist seeded "" DEFAULT_PERSIST_FNAME empty_world
  = (Raise (FileNotFoundError ""), empty_world).
Proof.
  apply (persist_empty_dir (RT := runtime) seeded DEFAULT_PERSIST_FNAME
           empty_world).
  - apply not_elem_of_empty.
  - apply lookup_empty.
Defined.

(** [persist] where [open] cannot create the file: below a directory that
    is missing, and below a path that names a regular file. *)
Lemma persist_unreachable_target :
  fst (persist seeded "storage" "sub/f.pickle" empty_world)
  = Raise (FileNotFoundError "storage/sub/f.pickle")
  ∧ fst (persist seeded "storage" DEFAULT_PERSIST_FNAME file_world)
    = Raise (NotADirectoryError "storage/object_node_mapping.pickle").
Proof. split; vm_compute; reflexivity. Qed.
End MoreExamples.
